(** * BaitBiter: the [ClickbaitVideo] class of both source files

    [src/bait_biter/_clickbait_video.py] (transcript stemmed and stopword
    filtered) and [src/src/clickbait_video.py] (transcript left as fetched)
    are embedded as two modules over one shared model of Python strings,
    values, exceptions and of the outside world the class talks to. *)

From Stdlib Require Import ZArith NArith String Ascii.
From stdpp Require Import base list gmap.

Set Warnings "-register-all".
Local Open Scope N_scope.

(** ** Python strings: sequences of code points *)

Abbreviation str := (list N).

Definition py (s : string) : str :=
  (fun a => N_of_ascii a) <$> list_ascii_of_string s.

Definition newline : N := 10.      (* "\n" *)
Definition space : N := 32.        (* " " *)
Definition nbsp : N := 160.        (* "\xa0" *)

(** [sep.join(l)] *)
Fixpoint join (sep : str) (l : list str) : str :=
  match l with
  | [] => []
  | [x] => x
  | x :: rest => x ++ sep ++ join sep rest
  end.

Fixpoint startswith (p s : str) : bool :=
  match p, s with
  | [], _ => true
  | _ :: _, [] => false
  | a :: p', b :: s' => if decide (a = b) then startswith p' s' else false
  end.

(** Scan of [s.replace(old, new)] for a non-empty [old]: [skip] counts the
    characters of a match that are still to be dropped. *)
Fixpoint replace_scan (old new : str) (skip : nat) (s : str) : str :=
  match s with
  | [] => []
  | c :: s' =>
      match skip with
      | S k => replace_scan old new k s'
      | O =>
          if startswith old s
          then new ++ replace_scan old new (Nat.pred (length old)) s'
          else c :: replace_scan old new O s'
      end
  end.

(** [s.replace(old, new)]; an empty [old] matches before every character
    and at the end. *)
Definition replace (old new s : str) : str :=
  match old with
  | [] => new ++ flat_map (fun c => c :: new) s
  | _ :: _ => replace_scan old new O s
  end.

(** ** Python values, as [response.json()] hands them back *)

Inductive pyval :=
| PNone
| PBool (b : bool)
| PNum (z : Z)
| PStr (s : str)
| PList (l : list pyval)
| PDict (d : gmap str pyval).

(** ** Exceptions *)

Inductive exn :=
| RegexMatchError              (* pytube.extract.video_id *)
| RequestException             (* requests.get: the transport failed *)
| JSONDecodeError              (* response.json() *)
| KeyError (key : str)         (* d[key] on a dict without key *)
| TypeError                    (* x[key] on a value that is no dict *)
| IndexError                   (* l[0] on an empty list *)
| AttributeError               (* self.a before self.a = ... *)
| CouldNotRetrieveTranscript   (* youtube_transcript_api *)
| OpenAIError.                 (* openai.error.OpenAIError *)

(** [data[key]] for a string [key] *)
Definition getitem (data : pyval) (key : str) : exn + pyval :=
  match data with
  | PDict d =>
      match d !! key with
      | Some v => inr v
      | None => inl (KeyError key)
      end
  | _ => inl TypeError
  end.

(** ** The collaborators *)

Record Response := { status_code : Z; content : str }.

Record Choice := { text : str }.
Record OpenAIObject := { choices : list Choice }.

(** The libraries and services the class calls.  The three services act on
    a [World]; the rest are functions. *)
Class Env := {
  World : Type;
  Transcript : Type;
  (* pytube *)
  extract_video_id : str -> exn + str;
  (* requests *)
  requests_get : str -> World -> (exn + Response) * World;
  json_loads : str -> option pyval;
  (* youtube_transcript_api *)
  YouTubeTranscriptApi_get_transcript : str -> World -> (exn + Transcript) * World;
  TextFormatter_format_transcript : Transcript -> str;
  (* openai *)
  Completion_create : str -> str -> Z -> World -> (exn + OpenAIObject) * World;
  (* the repository's prompt templates *)
  question_from_title_prompt : pyval -> str;
  answer_question_prompt : str -> str -> str;
  (* nltk *)
  word_tokenize : str -> list str;
  PorterStemmer_stem : str -> str;
  stopwords_words_english : list str;
  (* str.lower *)
  lower : str -> str
}.

(** [response.json()] *)
Definition Response_json `{Env} (response : Response) : exn + pyval :=
  match json_loads (content response) with
  | Some v => inr v
  | None => inl JSONDecodeError
  end.

(** [completion.choices[0].text] *)
Definition first_choice_text (completion : OpenAIObject) : exn + str :=
  match choices completion with
  | c :: _ => inr (text c)
  | [] => inl IndexError
  end.

(** ** The object and the outbound calls *)

(** The attributes of a [ClickbaitVideo]; [None] before the assignment. *)
Record ClickbaitVideo := {
  yt_url : option str;
  api_key : option str;
  question_model : option str;
  answer_model_type : option str;
  video_id : option str;
  title : option pyval;
  transcript : option str;
  question : option str
}.

Definition blank : ClickbaitVideo :=
  {| yt_url := None; api_key := None; question_model := None;
     answer_model_type := None; video_id := None; title := None;
     transcript := None; question := None |}.

Definition with_yt_url v o :=
  {| yt_url := Some v; api_key := api_key o; question_model := question_model o;
     answer_model_type := answer_model_type o; video_id := video_id o;
     title := title o; transcript := transcript o; question := question o |}.
Definition with_api_key v o :=
  {| yt_url := yt_url o; api_key := Some v; question_model := question_model o;
     answer_model_type := answer_model_type o; video_id := video_id o;
     title := title o; transcript := transcript o; question := question o |}.
Definition with_question_model v o :=
  {| yt_url := yt_url o; api_key := api_key o; question_model := Some v;
     answer_model_type := answer_model_type o; video_id := video_id o;
     title := title o; transcript := transcript o; question := question o |}.
Definition with_answer_model_type v o :=
  {| yt_url := yt_url o; api_key := api_key o; question_model := question_model o;
     answer_model_type := Some v; video_id := video_id o;
     title := title o; transcript := transcript o; question := question o |}.
Definition with_video_id v o :=
  {| yt_url := yt_url o; api_key := api_key o; question_model := question_model o;
     answer_model_type := answer_model_type o; video_id := Some v;
     title := title o; transcript := transcript o; question := question o |}.
Definition with_title v o :=
  {| yt_url := yt_url o; api_key := api_key o; question_model := question_model o;
     answer_model_type := answer_model_type o; video_id := video_id o;
     title := Some v; transcript := transcript o; question := question o |}.
Definition with_transcript v o :=
  {| yt_url := yt_url o; api_key := api_key o; question_model := question_model o;
     answer_model_type := answer_model_type o; video_id := video_id o;
     title := title o; transcript := Some v; question := question o |}.
Definition with_question v o :=
  {| yt_url := yt_url o; api_key := api_key o; question_model := question_model o;
     answer_model_type := answer_model_type o; video_id := video_id o;
     title := title o; transcript := transcript o; question := Some v |}.

(** One outbound call, as the program issues it. *)
Inductive call :=
| HttpGet (url : str)
| TranscriptFetch (video : str)
| Completion (model prompt : str) (max_tokens : Z).

Definition is_completion (c : call) : bool :=
  match c with Completion _ _ _ => true | _ => false end.

(** ** Methods: state and exceptions *)

Section Methods.
Context `{Env}.

(** What a method runs on: the object, the world, and the calls so far. *)
Record state := { self : ClickbaitVideo; world : World; trace : list call }.

Definition M (A : Type) : Type := state -> (exn + A) * state.

Definition ret {A} (a : A) : M A := fun st => (inr a, st).
Definition raise {A} (e : exn) : M A := fun st => (inl e, st).
Definition bind {A B} (m : M A) (k : A -> M B) : M B :=
  fun st =>
    match m st with
    | (inr a, st') => k a st'
    | (inl e, st') => (inl e, st')
    end.

(** a pure step that may raise *)
Definition lift {A} (r : exn + A) : M A :=
  match r with inr a => ret a | inl e => raise e end.

(** [self.a] *)
Definition getattr {A} (a : ClickbaitVideo -> option A) : M A :=
  fun st =>
    match a (self st) with
    | Some v => (inr v, st)
    | None => (inl AttributeError, st)
    end.

(** [self.a = v] *)
Definition setattr {A} (upd : A -> ClickbaitVideo -> ClickbaitVideo) (v : A) : M unit :=
  fun st =>
    (inr tt, {| self := upd v (self st); world := world st; trace := trace st |}).

(** a call to a service: recorded, then answered by the world *)
Definition outbound {A} (c : call) (f : World -> (exn + A) * World) : M A :=
  fun st =>
    let (r, w) := f (world st) in
    (r, {| self := self st; world := w; trace := trace st ++ [c] |}).

End Methods.

Declare Scope py_scope.
Delimit Scope py_scope with py.
Notation "x <- m ;; k" := (bind m (fun x => k))
  (at level 100, m at next level, right associativity) : py_scope.
Notation "m ;;; k" := (bind m (fun _ => k))
  (at level 100, right associativity) : py_scope.

(** [[f x for x in l if cond x]] *)
Fixpoint comprehension {A B} (f : A -> B) (cond : A -> bool) (l : list A) : list B :=
  match l with
  | [] => []
  | x :: l' =>
      if cond x then f x :: comprehension f cond l' else comprehension f cond l'
  end.

(** The f-string of [_fetch_title] *)
Definition oembed_url (video : str) : str :=
  py "https://www.youtube.com/oembed?url=https://www.youtube.com/watch?v="
    ++ video ++ py "&format=json".

(** A default argument: the default stands in when the caller passes none. *)
Definition arg {A} (dflt : A) (given : option A) : A :=
  match given with Some a => a | None => dflt end.

(** ** [src/bait_biter/_clickbait_video.py] *)

Module bait_biter.
Section ClickbaitVideo.
Context `{Env}.
Local Open Scope py_scope.

Definition _fetch_title : M pyval :=
  v <- getattr video_id ;;
  response <- outbound (HttpGet (oembed_url v)) (requests_get (oembed_url v)) ;;
  data <- lift (Response_json response) ;;
  lift (getitem data (py "title")).

Definition _get_edited_transcript : M str :=
  v <- getattr video_id ;;
  fetched <- outbound (TranscriptFetch v) (YouTubeTranscriptApi_get_transcript v) ;;
  let tokenized_transcript :=
    word_tokenize
      (replace [nbsp] [space]
         (replace [newline] [space] (TextFormatter_format_transcript fetched))) in
  let stemmed_transcript :=
    comprehension PorterStemmer_stem (fun _ => true) tokenized_transcript in
  let stop_words : gset str := list_to_set stopwords_words_english in
  let filtered_transcript :=
    join [space]
      (comprehension (fun word => word)
         (fun word => negb (bool_decide (lower word ∈ stop_words)))
         stemmed_transcript) in
  ret filtered_transcript.

Definition _generate_question_from_title (gpt_model : option str) : M str :=
  let gpt_model := arg (py "text-davinci-003") gpt_model in
  t <- getattr title ;;
  let prompt := question_from_title_prompt t in
  completion <- outbound (Completion gpt_model prompt 200)
                  (Completion_create gpt_model prompt 200) ;;
  lift (first_choice_text completion).

Definition answer_title_question : M str :=
  model <- getattr answer_model_type ;;
  t <- getattr transcript ;;
  q <- getattr question ;;
  let prompt := answer_question_prompt t q in
  completion <- outbound (Completion model prompt 100)
                  (Completion_create model prompt 100) ;;
  lift (first_choice_text completion).

Definition __init__ (yt_url' api_key' : str)
    (question_model' answer_model_type' : option str) : M unit :=
  let question_model' := arg (py "text-davinci-003") question_model' in
  let answer_model_type' := arg (py "text-davinci-003") answer_model_type' in
  setattr with_yt_url yt_url' ;;;
  setattr with_api_key api_key' ;;;
  setattr with_question_model question_model' ;;;
  setattr with_answer_model_type answer_model_type' ;;;
  u <- getattr yt_url ;;
  v <- lift (extract_video_id u) ;;
  setattr with_video_id v ;;;
  t <- _fetch_title ;;
  setattr with_title t ;;;
  e <- _get_edited_transcript ;;
  setattr with_transcript e ;;;
  q <- _generate_question_from_title None ;;
  setattr with_question q.

(** [ClickbaitVideo(...)]: a fresh object is initialised; the caller gets
    it only when [__init__] returns. *)
Definition new (yt_url' api_key' : str)
    (question_model' answer_model_type' : option str)
    (w : World) (calls : list call) : (exn + ClickbaitVideo) * World * list call :=
  match __init__ yt_url' api_key' question_model' answer_model_type'
          {| self := blank; world := w; trace := calls |} with
  | (inr _, st) => (inr (self st), world st, trace st)
  | (inl e, st) => (inl e, world st, trace st)
  end.

End ClickbaitVideo.
End bait_biter.

(** ** [src/src/clickbait_video.py] *)

Module src.
Section ClickbaitVideo.
Context `{Env}.
Local Open Scope py_scope.

Definition _fetch_title : M pyval :=
  v <- getattr video_id ;;
  response <- outbound (HttpGet (oembed_url v)) (requests_get (oembed_url v)) ;;
  data <- lift (Response_json response) ;;
  lift (getitem data (py "title")).

Definition _get_transcript : M str :=
  v <- getattr video_id ;;
  fetched <- outbound (TranscriptFetch v) (YouTubeTranscriptApi_get_transcript v) ;;
  ret (replace [newline] [space] (TextFormatter_format_transcript fetched)).

Definition _generate_question_from_title (gpt_model : option str) : M str :=
  let gpt_model := arg (py "text-davinci-003") gpt_model in
  t <- getattr title ;;
  let prompt := question_from_title_prompt t in
  completion <- outbound (Completion gpt_model prompt 200)
                  (Completion_create gpt_model prompt 200) ;;
  lift (first_choice_text completion).

Definition answer_title_question : M str :=
  model <- getattr answer_model_type ;;
  t <- getattr transcript ;;
  q <- getattr question ;;
  let prompt := answer_question_prompt t q in
  completion <- outbound (Completion model prompt 100)
                  (Completion_create model prompt 100) ;;
  lift (first_choice_text completion).

Definition __init__ (yt_url' api_key' : str)
    (question_model' answer_model_type' : option str) : M unit :=
  let question_model' := arg (py "text-davinci-003") question_model' in
  let answer_model_type' := arg (py "text-curie-001") answer_model_type' in
  setattr with_yt_url yt_url' ;;;
  setattr with_api_key api_key' ;;;
  setattr with_question_model question_model' ;;;
  setattr with_answer_model_type answer_model_type' ;;;
  u <- getattr yt_url ;;
  v <- lift (extract_video_id u) ;;
  setattr with_video_id v ;;;
  t <- _fetch_title ;;
  setattr with_title t ;;;
  e <- _get_transcript ;;
  setattr with_transcript e ;;;
  q <- _generate_question_from_title None ;;
  setattr with_question q.

Definition new (yt_url' api_key' : str)
    (question_model' answer_model_type' : option str)
    (w : World) (calls : list call) : (exn + ClickbaitVideo) * World * list call :=
  match __init__ yt_url' api_key' question_model' answer_model_type'
          {| self := blank; world := w; trace := calls |} with
  | (inr _, st) => (inr (self st), world st, trace st)
  | (inl e, st) => (inl e, world st, trace st)
  end.

End ClickbaitVideo.
End src.

(** ** The specification's vocabulary *)

(** Modelled from the spec: the error kinds of its section 7, and the kind
    each exception of the program falls under. *)
Inductive error_kind :=
| InvalidInput
| UpstreamUnavailable
| MalformedResponse
| TranscriptUnavailable
| CompletionFailed.

Definition kind_of (e : exn) : error_kind :=
  match e with
  | RegexMatchError => InvalidInput
  | RequestException => UpstreamUnavailable
  | JSONDecodeError | KeyError _ | TypeError | IndexError | AttributeError =>
      MalformedResponse
  | CouldNotRetrieveTranscript => TranscriptUnavailable
  | OpenAIError => CompletionFailed
  end.

(** Modelled from the spec: the model tiers of its section 6; the class's
    docstring names the two models. *)
Inductive tier := SmallerTier | LargestTier.

Definition model_tier (model : str) : option tier :=
  if decide (model = py "text-davinci-003") then Some LargestTier
  else if decide (model = py "text-curie-001") then Some SmallerTier
  else None.

Definition is_2xx (status : Z) : bool :=
  (Z.leb 200 status && Z.ltb status 300)%bool.

(** Modelled from the spec: the words of a string, its maximal runs of
    characters that are no white space, the way [str.split()] finds them. *)
Definition is_space (c : N) : bool :=
  bool_decide ((9 ≤ c ∧ c ≤ 13) ∨ (28 ≤ c ∧ c ≤ 32) ∨ c = 133 ∨ c = 160
               ∨ c = 5760 ∨ (8192 ≤ c ∧ c ≤ 8202) ∨ c = 8232 ∨ c = 8233
               ∨ c = 8239 ∨ c = 8287 ∨ c = 12288).

(** [cur] is the word being read, reversed *)
Fixpoint words_scan (cur : str) (s : str) : list str :=
  match s with
  | [] => match cur with [] => [] | _ => [reverse cur] end
  | c :: s' =>
      if is_space c
      then match cur with
           | [] => words_scan [] s'
           | _ => reverse cur :: words_scan [] s'
           end
      else words_scan (c :: cur) s'
  end.

Definition words (s : str) : list str := words_scan [] s.

(** a token that is a word: not empty, no white space in it *)
Definition is_word (token : str) : Prop :=
  token ≠ [] ∧ Forall (fun c => is_space c = false) token.

Section Vocabulary.
Context `{Env}.

(** The caption track as one string, the way the transcript retriever of
    [bait_biter] joins it. *)
Definition joined (fetched : Transcript) : str :=
  replace [nbsp] [space]
    (replace [newline] [space] (TextFormatter_format_transcript fetched)).

Definition stop_set : gset str := list_to_set stopwords_words_english.

(** The normalized mode in the spec's words: tokenize, stem every token,
    discard the stopwords, rejoin with single spaces. *)
Definition tokenize_step (s : str) : list str := word_tokenize s.
Definition stem_step (tokens : list str) : list str := PorterStemmer_stem <$> tokens.
Definition discard_step (tokens : list str) : list str :=
  filter (fun token => lower token ∉ stop_set) tokens.
Definition rejoin_step (tokens : list str) : str := join [space] tokens.

Definition normalized_tokens (s : str) : list str :=
  discard_step (stem_step (tokenize_step s)).

(** The title stage, the question stage and the answer call, read off the
    services directly. *)
Definition title_stage (v : str) (w : World) : (exn + pyval) * World :=
  let (r, w1) := requests_get (oembed_url v) w in
  (match r with
   | inl e => inl e
   | inr response =>
       match json_loads (content response) with
       | None => inl JSONDecodeError
       | Some (PDict d) =>
           match d !! py "title" with
           | Some t => inr t
           | None => inl (KeyError (py "title"))
           end
       | Some _ => inl TypeError
       end
   end, w1).

Definition completion_text (model prompt : str) (budget : Z) (w : World)
  : (exn + str) * World :=
  let (r, w1) := Completion_create model prompt budget w in
  (match r with
   | inl e => inl e
   | inr completion =>
       match choices completion with
       | c :: _ => inr (text c)
       | [] => inl IndexError
       end
   end, w1).

Definition question_call (t : pyval) : call :=
  Completion (py "text-davinci-003") (question_from_title_prompt t) 200.

Definition answer_call (model t q : str) : call :=
  Completion model (answer_question_prompt t q) 100.

(** Construction in the spec's words: the four stages in order, the first
    failure ends it.  [dflt] is the default answer model and [post] what the
    transcript retriever does to the fetched captions. *)
Definition staged (dflt : str) (post : Transcript -> str)
    (url key : str) (qm am : option str) (w : World) (calls : list call)
  : (exn + ClickbaitVideo) * World * list call :=
  match extract_video_id url with
  | inl e => (inl e, w, calls)
  | inr v =>
      match title_stage v w with
      | (inl e, w1) => (inl e, w1, calls ++ [HttpGet (oembed_url v)])
      | (inr t, w1) =>
          match YouTubeTranscriptApi_get_transcript v w1 with
          | (inl e, w2) =>
              (inl e, w2, calls ++ [HttpGet (oembed_url v); TranscriptFetch v])
          | (inr fetched, w2) =>
              match completion_text (py "text-davinci-003")
                      (question_from_title_prompt t) 200 w2 with
              | (inl e, w3) =>
                  (inl e, w3,
                   calls ++ [HttpGet (oembed_url v); TranscriptFetch v; question_call t])
              | (inr q, w3) =>
                  (inr {| yt_url := Some url; api_key := Some key;
                          question_model := Some (arg (py "text-davinci-003") qm);
                          answer_model_type := Some (arg dflt am);
                          video_id := Some v; title := Some t;
                          transcript := Some (post fetched);
                          question := Some q |}, w3,
                   calls ++ [HttpGet (oembed_url v); TranscriptFetch v; question_call t])
              end
          end
      end
  end.

(** All-or-nothing, ordered construction, for a constructor [construct]:
    one case per stage that can fail, and the case where none does. *)
Definition all_or_nothing
    (construct : str -> str -> option str -> option str -> World -> list call ->
                 (exn + ClickbaitVideo) * World * list call) : Prop :=
  ∀ url key qm am w calls,
    (∀ e, extract_video_id url = inl e →
          construct url key qm am w calls = (inl e, w, calls))
    ∧ (∀ v e w1,
          extract_video_id url = inr v →
          title_stage v w = (inl e, w1) →
          construct url key qm am w calls
          = (inl e, w1, calls ++ [HttpGet (oembed_url v)]))
    ∧ (∀ v t w1 e w2,
          extract_video_id url = inr v →
          title_stage v w = (inr t, w1) →
          YouTubeTranscriptApi_get_transcript v w1 = (inl e, w2) →
          construct url key qm am w calls
          = (inl e, w2, calls ++ [HttpGet (oembed_url v); TranscriptFetch v]))
    ∧ (∀ v t w1 fetched w2 e w3,
          extract_video_id url = inr v →
          title_stage v w = (inr t, w1) →
          YouTubeTranscriptApi_get_transcript v w1 = (inr fetched, w2) →
          completion_text (py "text-davinci-003") (question_from_title_prompt t) 200 w2
          = (inl e, w3) →
          construct url key qm am w calls
          = (inl e, w3,
             calls ++ [HttpGet (oembed_url v); TranscriptFetch v; question_call t]))
    ∧ (∀ v t w1 fetched w2 q w3,
          extract_video_id url = inr v →
          title_stage v w = (inr t, w1) →
          YouTubeTranscriptApi_get_transcript v w1 = (inr fetched, w2) →
          completion_text (py "text-davinci-003") (question_from_title_prompt t) 200 w2
          = (inr q, w3) →
          ∃ o, construct url key qm am w calls
               = (inr o, w3,
                  calls ++ [HttpGet (oembed_url v); TranscriptFetch v; question_call t])
               ∧ video_id o = Some v ∧ title o = Some t ∧ question o = Some q).

(** The answer operation [answer] on the objects that [construct] hands
    out: one completion call with the answer model the constructor was given
    ([dflt] when none), the prompt of the stored transcript and question and
    a budget of 100 tokens; the text of the first choice is the result. *)
Definition answers_as_configured
    (construct : str -> str -> option str -> option str -> World -> list call ->
                 (exn + ClickbaitVideo) * World * list call)
    (answer : M str) (dflt : str) : Prop :=
  ∀ url key qm am w0 calls0 o w1 calls1,
    construct url key qm am w0 calls0 = (inr o, w1, calls1) →
    ∃ t q,
      transcript o = Some t ∧ question o = Some q
      ∧ answer_model_type o = Some (arg dflt am)
      ∧ ∀ w calls,
          let model := arg dflt am in
          let prompt := answer_question_prompt t q in
          let st := {| self := o; world := w; trace := calls |} in
          snd (answer st)
          = {| self := o; world := snd (Completion_create model prompt 100 w);
               trace := calls ++ [Completion model prompt 100] |}
          ∧ (∀ e, fst (Completion_create model prompt 100 w) = inl e →
                  fst (answer st) = inl e)
          ∧ (∀ c rest, fst (Completion_create model prompt 100 w)
                       = inr {| choices := c :: rest |} →
                       fst (answer st) = inr (text c)).

(** The state that differs from [st] in the stored credential only. *)
Definition rekey (key : str) (st : state) : state :=
  {| self := with_api_key key (self st); world := world st; trace := trace st |}.

(** A method that never looks at the stored credential: run with another
    credential in the object, it returns the same, leaves the same world and
    the same calls, and the object differs in the credential only. *)
Definition key_blind {A} (m : M A) : Prop :=
  ∀ key st, m (rekey key st) = (fst (m st), rekey key (snd (m st))).

(** An answer operation that leaves the object alone and asks the endpoint
    anew at every invocation. *)
Definition asks_anew (answer : M str) : Prop :=
  (∀ st, self (snd (answer st)) = self st)
  ∧ (∀ st model t q,
        answer_model_type (self st) = Some model →
        transcript (self st) = Some t →
        question (self st) = Some q →
        let c := Completion model (answer_question_prompt t q) 100 in
        let st1 := snd (answer st) in
        let st2 := snd (answer st1) in
        trace st1 = trace st ++ [c]
        ∧ trace st2 = trace st ++ [c; c]
        ∧ fst (answer st)
          = fst (completion_text model (answer_question_prompt t q) 100 (world st))
        ∧ world st1
          = snd (completion_text model (answer_question_prompt t q) 100 (world st))
        ∧ fst (answer st1)
          = fst (completion_text model (answer_question_prompt t q) 100 (world st1))).

(** The title fetch [fetch], as the code has it: the transport's error as it
    is, otherwise the body alone decides, whatever the status. *)
Definition fetches_title (fetch : M pyval) : Prop :=
  ∀ st v,
    video_id (self st) = Some v →
    let after w :=
      {| self := self st; world := w; trace := trace st ++ [HttpGet (oembed_url v)] |} in
    (∀ e w, requests_get (oembed_url v) (world st) = (inl e, w) →
            fetch st = (inl e, after w))
    ∧ (∀ response w,
          requests_get (oembed_url v) (world st) = (inr response, w) →
          (json_loads (content response) = None →
           fetch st = (inl JSONDecodeError, after w))
          ∧ (∀ d, json_loads (content response) = Some (PDict d) →
                  d !! py "title" = None →
                  fetch st = (inl (KeyError (py "title")), after w))
          ∧ (∀ d t, json_loads (content response) = Some (PDict d) →
                    d !! py "title" = Some t →
                    fetch st = (inr t, after w))).

(** A constructor body that stores the credential and does nothing else
    with it. *)
Definition key_blind_init
    (init : str -> str -> option str -> option str -> M unit) : Prop :=
  ∀ url key1 key2 qm am st,
    init url key2 qm am st
    = (fst (init url key1 qm am st), rekey key2 (snd (init url key1 qm am st))).

End Vocabulary.

(** ** Test doubles

    Deterministic stand-ins for the services, in the manner of the
    end-to-end scenario of the spec's section 8. *)

Module Stub.

Record script := {
  page : exn + Response;
  parsed : option pyval;
  captions : exn + list str
}.

Definition is_ws (c : N) : bool :=
  bool_decide (c = space ∨ c = nbsp ∨ c = newline).

(** whitespace splitting; [cur] is the word being read, reversed *)
Fixpoint split_ws (cur : str) (s : str) : list str :=
  match s with
  | [] => match cur with [] => [] | _ => [reverse cur] end
  | c :: s' =>
      if is_ws c
      then match cur with [] => split_ws [] s' | _ => reverse cur :: split_ws [] s' end
      else split_ws (c :: cur) s'
  end.

(** a final "n't" is a token of its own, as for the Treebank tokenizer:
    "can't" gives "ca" and "n't" *)
Definition split_contraction (word : str) : list str :=
  match reverse word with
  | 116 :: 39 :: 110 :: (_ :: _) as stem => [reverse stem; py "n't"]
  | _ => [word]
  end.

Definition tokenize (s : str) : list str :=
  flat_map split_contraction (split_ws [] s).

Definition ascii_lower (s : str) : str :=
  (fun c => if bool_decide (65 ≤ c ∧ c ≤ 90) then c + 32 else c) <$> s.

(** drops a final "s" *)
Definition toy_stem (s : str) : str :=
  match reverse (ascii_lower s) with
  | 115 :: (_ :: _) as r => reverse r
  | _ => ascii_lower s
  end.

(** The identifier pattern of pytube, [(?:v=|\/)([0-9A-Za-z_-]{11}).*],
    searched from the left: the eleven identifier characters that follow
    the first "v=" or "/" which has eleven of them behind it. *)
Definition id_char (c : N) : bool :=
  bool_decide ((48 ≤ c ∧ c ≤ 57) ∨ (65 ≤ c ∧ c ≤ 90) ∨ (97 ≤ c ∧ c ≤ 122)
               ∨ c = 95 ∨ c = 45).

Definition id_at (s : str) : option str :=
  let candidate := take 11 s in
  if (bool_decide (length candidate = 11%nat) && forallb id_char candidate)%bool
  then Some candidate
  else None.

Fixpoint video_id_search (s : str) : exn + str :=
  match s with
  | [] => inl RegexMatchError
  | _ :: s' =>
      let found :=
        if startswith (py "v=") s then id_at (drop 2 s)
        else if startswith (py "/") s then id_at s'
        else None in
      match found with
      | Some v => inr v
      | None => video_id_search s'
      end
  end.

(** The world is the list of answers the completion endpoint has yet to
    give. *)
Definition complete (w : list (exn + OpenAIObject))
  : (exn + OpenAIObject) * list (exn + OpenAIObject) :=
  match w with
  | [] => (inl OpenAIError, [])
  | r :: w' => (r, w')
  end.

Definition env (s : script) : Env := {|
  World := list (exn + OpenAIObject);
  Transcript := list str;
  extract_video_id := video_id_search;
  requests_get := fun _ w => (page s, w);
  json_loads := fun _ => parsed s;
  YouTubeTranscriptApi_get_transcript := fun _ w => (captions s, w);
  TextFormatter_format_transcript := join [newline];
  Completion_create := fun _ _ _ w => complete w;
  question_from_title_prompt :=
    fun t => py "Title: " ++ match t with PStr s => s | _ => [] end;
  answer_question_prompt := fun t q => t ++ py " | " ++ q;
  word_tokenize := tokenize;
  PorterStemmer_stem := toy_stem;
  stopwords_words_english := py <$> ["the"; "is"; "to"; "your"; "before"]%string;
  lower := ascii_lower
|}.

Definition said (s : string) : exn + OpenAIObject :=
  inr {| choices := [ {| text := py s |} ] |}.

Definition url : str := py "https://youtu.be/abc123DEF45".
Definition the_title : pyval := PStr (py "You Won't Believe This Trick").

Definition scenario : script := {|
  page := inr {| status_code := 200; content := py "{...}" |};
  parsed := Some (PDict {[ py "title" := the_title ]});
  captions :=
    inr [py "the trick is to always check"; py "your work twice before submitting"]
|}.

Definition answers : list (exn + OpenAIObject) :=
  [said "What is the trick?";
   said "Always check your work twice before submitting.";
   said "Check twice."].

(** a lookup answered 404 whose body still parses to an object with a title *)
Definition not_found : script := {|
  page := inr {| status_code := 404; content := py "{...}" |};
  parsed := Some (PDict {[ py "title" := the_title ]});
  captions := captions scenario
|}.

Definition no_captions : script := {|
  page := page scenario;
  parsed := parsed scenario;
  captions := inl CouldNotRetrieveTranscript
|}.

(** one caption with a non-breaking space in it: "a\xa0b" *)
Definition hard_space : script := {|
  page := page scenario;
  parsed := parsed scenario;
  captions := inr [[97; nbsp; 98]]
|}.

(** one caption with a contraction in it *)
Definition contraction : script := {|
  page := page scenario;
  parsed := parsed scenario;
  captions := inr [py "can't stop"]
|}.

(** a lookup whose body is a JSON array, not an object *)
Definition listing : script := {|
  page := page scenario;
  parsed := Some (PList []);
  captions := captions scenario
|}.

(** captions of stopwords only *)
Definition only_stopwords : script := {|
  page := page scenario;
  parsed := parsed scenario;
  captions := inr [py "the to"; py "your"]
|}.

(** an endpoint that answers once, without a choice *)
Definition silent : list (exn + OpenAIObject) := [inr {| choices := [] |}].

(** the object once its identifier is set, before any call *)
Definition identified (s : script) : @state (env s) :=
  @Build_state (env s) (with_video_id (py "abc123DEF45") blank) answers [].

(** an object in the hands of a caller, the endpoint holding [w] *)
Definition session (s : script) (o : ClickbaitVideo)
    (w : list (exn + OpenAIObject)) : @state (env s) :=
  @Build_state (env s) o w [].

(** what construction on [scenario] hands out, by the [bait_biter] variant *)
Definition ready : ClickbaitVideo :=
  {| yt_url := Some url; api_key := Some (py "sk-1");
     question_model := Some (py "text-davinci-003");
     answer_model_type := Some (py "text-davinci-003");
     video_id := Some (py "abc123DEF45"); title := Some the_title;
     transcript := Some (py "trick i alway check work twice submitting");
     question := Some (py "What is the trick?") |}.

End Stub.

(** ** Strings and comprehensions *)

Lemma comprehension_all {A B} (f : A -> B) (l : list A) :
  comprehension f (fun _ => true) l = f <$> l.
Proof. induction l as [|x l IH]; simpl; [done | by rewrite IH]. Qed.

Lemma comprehension_unless {A} (P : A -> Prop) `{!∀ x, Decision (P x)} (l : list A) :
  comprehension (fun x => x) (fun x => negb (bool_decide (P x))) l
  = filter (fun x => ¬ P x) l.
Proof.
  induction l as [|x l IH]; simpl; [done |].
  rewrite IH. destruct (decide (P x)) as [Hp | Hp].
  - rewrite bool_decide_eq_true_2 by done. simpl.
    by rewrite filter_cons_False by (intros Hn; by apply Hn).
  - rewrite bool_decide_eq_false_2 by done. simpl.
    by rewrite filter_cons_True.
Qed.

Lemma replace_char (c : N) (new s : str) :
  replace [c] new s = flat_map (fun x => if decide (c = x) then new else [x]) s.
Proof.
  unfold replace. induction s as [|x s IH]; simpl; [done |].
  destruct (decide (c = x)); simpl; by rewrite IH.
Qed.

Lemma replace_char_gone (c d : N) (s : str) : c ≠ d → c ∉ replace [c] [d] s.
Proof.
  intros Hcd. rewrite replace_char.
  induction s as [|x s IH]; simpl; [by apply not_elem_of_nil |].
  destruct (decide (c = x)) as [-> | Hx]; simpl;
    rewrite not_elem_of_cons; split; congruence || done.
Qed.

Lemma replace_char_keeps (a c d : N) (s : str) :
  a ≠ c → a ≠ d → a ∉ s → a ∉ replace [c] [d] s.
Proof.
  intros Hac Had. rewrite replace_char.
  induction s as [|x s IH]; simpl; [done |].
  rewrite not_elem_of_cons. intros [Hx Hs].
  destruct (decide (c = x)); simpl; rewrite not_elem_of_cons; auto.
Qed.

(** ** Running the methods *)

Arguments replace : simpl never.
Arguments py : simpl never.
Arguments oembed_url : simpl never.

(** Case analysis on the answer of one collaborator at a time. *)
Ltac oracle :=
  match goal with
  | |- context [extract_video_id ?u] => destruct (extract_video_id u) eqn:?
  | |- context [requests_get ?u ?w] =>
      destruct (requests_get u w) as [[?|?] ?] eqn:?
  | |- context [json_loads ?c] => destruct (json_loads c) as [[]|] eqn:?
  | |- context [@lookup _ _ (gmap _ _) _ ?k ?d] => destruct (d !! k) eqn:?
  | |- context [YouTubeTranscriptApi_get_transcript ?v ?w] =>
      destruct (YouTubeTranscriptApi_get_transcript v w) as [[?|?] ?] eqn:?
  | |- context [Completion_create ?m ?p ?n ?w] =>
      destruct (Completion_create m p n w) as [[?|?] ?] eqn:?
  | |- context [choices ?c] => destruct (choices c) eqn:?
  end; simpl.

Ltac unfold_methods :=
  unfold bind, ret, raise, lift, getattr, setattr, outbound, Response_json,
    getitem, first_choice_text, arg in *.

(** Case analysis on an attribute that may not be set yet. *)
Ltac attr :=
  match goal with
  | |- context [match ?x with Some _ => _ | None => _ end] =>
      is_var x; destruct x; simpl
  end.

(** Settles a decidable statement about concrete data by running its
    decision procedure. *)
Ltac decide_by_run := apply (bool_decide_unpack _); vm_compute; exact I.

(** Runs the methods of the goal on the state [st], case by case. *)
Ltac run_methods st :=
  destruct st as [[? ? ? ? ? ? ? ?] ? ?]; unfold_methods; simpl;
  repeat first [attr | oracle]; reflexivity.

Section Construction.
Context `{Env}.

(** Construction by [bait_biter] is the staged run, with the stemmed and
    stopword-filtered transcript. *)
Lemma bait_new_staged url key qm am w calls :
  bait_biter.new url key qm am w calls
  = staged (py "text-davinci-003")
      (fun fetched => rejoin_step (normalized_tokens (joined fetched)))
      url key qm am w calls.
Proof.
  unfold bait_biter.new, bait_biter.__init__, bait_biter._fetch_title,
    bait_biter._get_edited_transcript, bait_biter._generate_question_from_title,
    staged, title_stage, completion_text, question_call, rejoin_step,
    normalized_tokens, discard_step, stem_step, tokenize_step, joined, stop_set.
  unfold_methods.
  simpl. repeat oracle; rewrite <- ?app_assoc; try reflexivity.
  by rewrite comprehension_all, (comprehension_unless (fun x => lower x ∈ _)).
Qed.

(** Construction by [src] is the staged run, with the transcript as
    fetched but for its newlines. *)
Lemma src_new_staged url key qm am w calls :
  src.new url key qm am w calls
  = staged (py "text-curie-001")
      (fun fetched => replace [newline] [space] (TextFormatter_format_transcript fetched))
      url key qm am w calls.
Proof.
  unfold src.new, src.__init__, src._fetch_title, src._get_transcript,
    src._generate_question_from_title,
    staged, title_stage, completion_text, question_call.
  unfold_methods.
  simpl. repeat oracle; rewrite <- ?app_assoc; reflexivity.
Qed.

End Construction.

(** ** The normalized transcript *)

(** C1: in normalized mode the transcript retriever, once the caption
    track is fetched, returns the joined caption string tokenized, every
    token stemmed, the tokens whose lower-cased form is a stopword
    discarded, and the rest rejoined with single spaces; the surviving
    tokens are the stemmed tokens that are no stopwords, in their order. *)
Theorem edited_transcript_steps `{Env} (st : state) (v : str)
    (fetched : Transcript) (w : World) :
  video_id (self st) = Some v →
  YouTubeTranscriptApi_get_transcript v (world st) = (inr fetched, w) →
  let tokens := tokenize_step (joined fetched) in
  let stemmed := stem_step tokens in
  let kept := discard_step stemmed in
  bait_biter._get_edited_transcript st
  = (inr (rejoin_step kept),
     {| self := self st; world := w; trace := trace st ++ [TranscriptFetch v] |})
  ∧ kept `sublist_of` stemmed
  ∧ length stemmed = length tokens
  ∧ (∀ token, token ∈ kept ↔ token ∈ stemmed ∧ lower token ∉ stop_set).
Proof.
  intros Hv Hf tokens stemmed kept. split; [| split; [| split]].
  - unfold bait_biter._get_edited_transcript. unfold_methods.
    rewrite Hv, Hf. simpl.
    by rewrite comprehension_all, (comprehension_unless (fun x => lower x ∈ _)).
  - apply sublist_filter.
  - unfold stemmed, stem_step. apply length_fmap.
  - intros token. unfold kept, discard_step. rewrite list_elem_of_filter. tauto.
Qed.

Lemma edited_transcript_steps_witness :
  fst (bait_biter._get_edited_transcript (Stub.identified Stub.scenario))
  = inr (py "trick i alway check work twice submitting").
Proof.
  destruct (edited_transcript_steps (Stub.identified Stub.scenario)
              (py "abc123DEF45")
              [py "the trick is to always check"; py "your work twice before submitting"]
              Stub.answers eq_refl eq_refl) as [-> _].
  vm_compute. reflexivity.
Defined.

(** ** Construction *)

(** C2: construction runs identifier extraction, title fetch, transcript
    fetch and question synthesis in this order; the first stage that fails
    ends it with that stage's error, with no object handed to the caller
    and no call of a later stage made, so a video without captions fails
    with the transcript error before any completion call; this holds for
    both variants of the class. *)
Theorem construction_all_or_nothing `{Env} :
  all_or_nothing bait_biter.new ∧ all_or_nothing src.new.
Proof.
  split; intros url key qm am w calls;
    [rewrite bait_new_staged | rewrite src_new_staged]; unfold staged;
    (repeat split; intros;
     repeat match goal with Heq : _ = _ |- _ => rewrite Heq; clear Heq end;
     eauto).
Qed.

Lemma construction_all_or_nothing_witness :
  bait_biter.new (H := Stub.env Stub.no_captions)
    Stub.url (py "sk-1") None None Stub.answers []
  = (inl CouldNotRetrieveTranscript, Stub.answers,
     [HttpGet (oembed_url (py "abc123DEF45")); TranscriptFetch (py "abc123DEF45")]).
Proof.
  destruct (construction_all_or_nothing (H := Stub.env Stub.no_captions))
    as [Hbait _].
  destruct (Hbait Stub.url (py "sk-1") None None Stub.answers [])
    as (_ & _ & Hcaptions & _).
  apply (Hcaptions (py "abc123DEF45") Stub.the_title Stub.answers
           CouldNotRetrieveTranscript Stub.answers); reflexivity.
Defined.

Section Ready.
Context `{Env}.

(** What a constructed object holds. *)
Lemma staged_ready dflt post url key qm am w calls o w' calls' :
  staged dflt post url key qm am w calls = (inr o, w', calls') →
  ∃ v t fetched q,
    o = {| yt_url := Some url; api_key := Some key;
           question_model := Some (arg (py "text-davinci-003") qm);
           answer_model_type := Some (arg dflt am);
           video_id := Some v; title := Some t;
           transcript := Some (post fetched); question := Some q |}.
Proof.
  unfold staged. intros Hs. repeat case_match; simplify_eq. eauto.
Qed.

(** One invocation of the answer operation on an object whose three
    attributes are set. *)
Lemma bait_answer_run st model t q :
  answer_model_type (self st) = Some model →
  transcript (self st) = Some t →
  question (self st) = Some q →
  bait_biter.answer_title_question st
  = (fst (completion_text model (answer_question_prompt t q) 100 (world st)),
     {| self := self st;
        world := snd (completion_text model (answer_question_prompt t q) 100 (world st));
        trace := trace st ++ [answer_call model t q] |}).
Proof.
  intros Hm Ht Hq. unfold bait_biter.answer_title_question, completion_text, answer_call.
  unfold_methods. rewrite Hm, Ht, Hq. simpl. repeat oracle; reflexivity.
Qed.

Lemma src_answer_run st model t q :
  answer_model_type (self st) = Some model →
  transcript (self st) = Some t →
  question (self st) = Some q →
  src.answer_title_question st
  = (fst (completion_text model (answer_question_prompt t q) 100 (world st)),
     {| self := self st;
        world := snd (completion_text model (answer_question_prompt t q) 100 (world st));
        trace := trace st ++ [answer_call model t q] |}).
Proof.
  intros Hm Ht Hq. unfold src.answer_title_question, completion_text, answer_call.
  unfold_methods. rewrite Hm, Ht, Hq. simpl. repeat oracle; reflexivity.
Qed.

End Ready.

(** ** Question synthesis *)

(** C3: the question model handed to the constructor is stored and not
    used: constructed with "text-curie-001" as question model, either
    variant of the class issues its one completion call of construction,
    with a budget of 200 tokens, to "text-davinci-003". *)
Theorem question_model_not_used :
  (∃ o w calls,
      bait_biter.new (H := Stub.env Stub.scenario)
        Stub.url (py "sk-1") (Some (py "text-curie-001")) None Stub.answers []
      = (inr o, w, calls)
      ∧ question_model o = Some (py "text-curie-001")
      ∧ question o = Some (py "What is the trick?")
      ∧ filter (fun c => is_completion c = true) calls
        = [Completion (py "text-davinci-003")
             (py "Title: You Won't Believe This Trick") 200])
  ∧ (∃ o w calls,
        src.new (H := Stub.env Stub.scenario)
          Stub.url (py "sk-1") (Some (py "text-curie-001")) None Stub.answers []
        = (inr o, w, calls)
        ∧ question_model o = Some (py "text-curie-001")
        ∧ question o = Some (py "What is the trick?")
        ∧ filter (fun c => is_completion c = true) calls
          = [Completion (py "text-davinci-003")
               (py "Title: You Won't Believe This Trick") 200]).
Proof.
  split; eexists _, _, _;
    (split; [vm_compute; reflexivity |]); vm_compute; done.
Qed.

(** ** The answer operation *)

(** C4: on every object that construction hands out, in either variant,
    each invocation of the answer operation issues one completion call with
    the answer model given to the constructor (the variant's default when
    none was given), the prompt built from the stored transcript and
    question, and a budget of 100 tokens, and returns the text of the first
    choice as it is; an error of the endpoint is raised as it is. *)
Theorem answer_call_contract `{Env} :
  answers_as_configured bait_biter.new bait_biter.answer_title_question
    (py "text-davinci-003")
  ∧ answers_as_configured src.new src.answer_title_question
      (py "text-curie-001").
Proof.
  split; intros url key qm am w0 calls0 o w1 calls1 Hnew;
    [rewrite bait_new_staged in Hnew | rewrite src_new_staged in Hnew];
    apply staged_ready in Hnew as (v & t & fetched & q & ->);
    eexists _, q; (split; [reflexivity |]); (split; [reflexivity |]);
    (split; [reflexivity |]); intros w calls; simpl;
    [erewrite bait_answer_run by reflexivity
    | erewrite src_answer_run by reflexivity];
    unfold completion_text, answer_call; simpl;
    destruct (Completion_create _ _ _ w) as [[e | c] w'] eqn:Hc; simpl;
    (split; [reflexivity |]); split; intros; simplify_eq; done.
Qed.

Lemma answer_call_contract_witness :
  fst (bait_biter.answer_title_question
         (Stub.session Stub.scenario
            {| yt_url := Some Stub.url; api_key := Some (py "sk-1");
               question_model := Some (py "text-davinci-003");
               answer_model_type := Some (py "text-davinci-003");
               video_id := Some (py "abc123DEF45"); title := Some Stub.the_title;
               transcript := Some (py "trick i alway check work twice submitting");
               question := Some (py "What is the trick?") |}
            (tail Stub.answers)))
  = inr (py "Always check your work twice before submitting.").
Proof.
  destruct (answer_call_contract (H := Stub.env Stub.scenario)) as [Hbait _].
  assert (Hnew : bait_biter.new (H := Stub.env Stub.scenario)
                   Stub.url (py "sk-1") None None Stub.answers []
                 = (inr Stub.ready, tail Stub.answers,
                    [HttpGet (oembed_url (py "abc123DEF45")); TranscriptFetch (py "abc123DEF45");
                     Completion (py "text-davinci-003")
                       (py "Title: You Won't Believe This Trick") 200]))
    by (vm_compute; reflexivity).
  destruct (Hbait _ _ _ _ _ _ _ _ _ Hnew) as (t & q & Ht & Hq & _ & Hrun).
  injection Ht as <-. injection Hq as <-.
  destruct (Hrun (tail Stub.answers) []) as (_ & _ & Htext).
  apply (Htext {| text := py "Always check your work twice before submitting." |} []).
  reflexivity.
Defined.

(** ** Default models *)

(** C5, as the code has it: without an answer model from the caller, the
    normalized-mode variant stores "text-davinci-003", the largest tier, and
    the raw-mode variant stores "text-curie-001", the smaller tier. *)
Theorem default_answer_models `{Env} (url key : str) (qm : option str) (st : state) :
  answer_model_type (self (snd (bait_biter.__init__ url key qm None st)))
  = Some (py "text-davinci-003")
  ∧ model_tier (py "text-davinci-003") = Some LargestTier
  ∧ answer_model_type (self (snd (src.__init__ url key qm None st)))
    = Some (py "text-curie-001")
  ∧ model_tier (py "text-curie-001") = Some SmallerTier.
Proof.
  split; [| split; [| split]]; try (vm_compute; reflexivity).
  - unfold bait_biter.__init__, bait_biter._fetch_title,
      bait_biter._get_edited_transcript, bait_biter._generate_question_from_title.
    unfold_methods. simpl. repeat oracle; reflexivity.
  - unfold src.__init__, src._fetch_title, src._get_transcript,
      src._generate_question_from_title.
    unfold_methods. simpl. repeat oracle; reflexivity.
Qed.

(** C5 as stated fails: the normalized-mode default is not of the smaller
    tier (and the raw-mode default not of the largest). *)
Lemma default_answer_models_not_as_claimed :
  ¬ (∃ m r,
        answer_model_type
          (self (snd (bait_biter.__init__ Stub.url (py "sk-1") None None
                        (Stub.session Stub.scenario blank Stub.answers))))
        = Some m
        ∧ model_tier m = Some SmallerTier
        ∧ answer_model_type
            (self (snd (src.__init__ Stub.url (py "sk-1") None None
                          (Stub.session Stub.scenario blank Stub.answers))))
          = Some r
        ∧ model_tier r = Some LargestTier).
Proof.
  intros (m & r & Hm & Htier & _).
  vm_compute in Hm. injection Hm as <-.
  vm_compute in Htier. discriminate.
Qed.

(** ** The title fetch *)

(** C6, as the code has it: in both variants the title fetch makes one GET;
    a failure of the transport is raised as it is; otherwise the status is
    not looked at and the body decides: a body that is no JSON raises the
    decoder's error, an object without "title" raises KeyError, an object
    with "title" yields that field's value.  The transport's error is of
    kind UpstreamUnavailable and the KeyError of kind MalformedResponse. *)
Theorem title_fetch_outcomes `{Env} :
  fetches_title bait_biter._fetch_title
  ∧ fetches_title src._fetch_title
  ∧ kind_of RequestException = UpstreamUnavailable
  ∧ kind_of (KeyError (py "title")) = MalformedResponse.
Proof.
  split; [| split; [| done]].
  - intros st v Hv after. unfold bait_biter._fetch_title. unfold_methods.
    rewrite Hv. simpl. split.
    + intros e w ->. reflexivity.
    + intros response w ->. simpl. repeat split.
      * intros ->. reflexivity.
      * intros d -> Hd. simpl. rewrite Hd. reflexivity.
      * intros d t -> Hd. simpl. rewrite Hd. reflexivity.
  - intros st v Hv after. unfold src._fetch_title. unfold_methods.
    rewrite Hv. simpl. split.
    + intros e w ->. reflexivity.
    + intros response w ->. simpl. repeat split.
      * intros ->. reflexivity.
      * intros d -> Hd. simpl. rewrite Hd. reflexivity.
      * intros d t -> Hd. simpl. rewrite Hd. reflexivity.
Qed.

Lemma title_fetch_outcomes_witness :
  fst (bait_biter._fetch_title (Stub.identified Stub.scenario)) = inr Stub.the_title.
Proof.
  destruct (title_fetch_outcomes (H := Stub.env Stub.scenario)) as [Hbait _].
  destruct (Hbait (Stub.identified Stub.scenario) (py "abc123DEF45") eq_refl)
    as [_ Hbody].
  destruct (Hbody {| status_code := 200; content := py "{...}" |} Stub.answers eq_refl)
    as (_ & _ & Htitle).
  rewrite (Htitle {[ py "title" := Stub.the_title ]} Stub.the_title eq_refl eq_refl).
  reflexivity.
Defined.

(** C6 as stated fails: a lookup answered with status 404 whose body is an
    object with a title does not fail with UpstreamUnavailable; the title
    is returned. *)
Lemma title_fetch_ignores_status :
  ∃ response w,
    requests_get (Env := Stub.env Stub.not_found)
      (oembed_url (py "abc123DEF45")) (world (Stub.identified Stub.not_found))
    = (inr response, w)
    ∧ is_2xx (status_code response) = false
    ∧ fst (bait_biter._fetch_title (Stub.identified Stub.not_found))
      = inr Stub.the_title
    ∧ ¬ (∃ e, fst (bait_biter._fetch_title (Stub.identified Stub.not_found)) = inl e
              ∧ kind_of e = UpstreamUnavailable).
Proof.
  eexists _, _. split; [reflexivity |]. split; [reflexivity |].
  split; [vm_compute; reflexivity |].
  intros (e & He & _). vm_compute in He. discriminate.
Qed.

(** ** Token counts *)

(** In neither variant does a newline survive in the transcript string
    before tokenizing, and in [bait_biter] no non-breaking space either. *)
Lemma joined_clean `{Env} (fetched : Transcript) :
  (newline ∉ joined fetched) ∧ (nbsp ∉ joined fetched)
  ∧ (newline ∉ replace [newline] [space] (TextFormatter_format_transcript fetched)).
Proof.
  unfold joined. repeat split.
  - apply replace_char_keeps; [done | done |]. by apply replace_char_gone.
  - by apply replace_char_gone.
  - by apply replace_char_gone.
Qed.

(** A run of characters that are no white space is read into the word
    at hand. *)
Lemma words_scan_word (t cur s : str) :
  Forall (fun c => is_space c = false) t →
  words_scan cur (t ++ s) = words_scan (reverse t ++ cur) s.
Proof.
  intros Ht. revert cur. induction Ht as [|c t Hc Ht IH]; intros cur; [done |].
  simpl. rewrite Hc, IH. by rewrite reverse_cons, <- app_assoc.
Qed.

(** The words of tokens joined by single spaces are the tokens, when each
    token is a word. *)
Lemma words_join (tokens : list str) :
  Forall is_word tokens → words (join [space] tokens) = tokens.
Proof.
  unfold words. induction 1 as [|t rest [Hne Ht] Hrest IH]; [done |].
  assert (Hrev : ∃ c r, reverse t = c :: r).
  { destruct (reverse t) as [|c r] eqn:Hr; [| eauto].
    apply (f_equal reverse) in Hr. rewrite reverse_involutive in Hr. done. }
  destruct Hrev as (c & r & Hr).
  assert (Ht' : reverse (c :: r) = t) by (by rewrite <- Hr, reverse_involutive).
  destruct rest as [|t' rest].
  - simpl. rewrite <- (app_nil_r t) at 1.
    rewrite words_scan_word by done. rewrite app_nil_r, Hr. simpl.
    by rewrite Ht'.
  - change (join [space] (t :: t' :: rest))
      with (t ++ space :: join [space] (t' :: rest)).
    rewrite words_scan_word by done. rewrite app_nil_r, Hr.
    change (words_scan (c :: r) (space :: join [space] (t' :: rest)))
      with (reverse (c :: r) :: words_scan [] (join [space] (t' :: rest))).
    by rewrite Ht', IH.
Qed.

(** C7, as the code has it: for one and the same fetched caption track,
    the normalized transcript is the surviving stems joined by single
    spaces; the survivors are a sub-sequence of the stems of the tokens that
    the tokenizer finds in the raw-mode transcript once its non-breaking
    spaces are spaces, hence no more than those tokens; and when every
    survivor is a word (not empty, no white space in it), the words of the
    normalized transcript are the survivors, so no more than those tokens
    either. *)
Theorem normalized_no_more_tokens `{Env} (st : state) (normalized raw : str)
    (st1 st2 : state) :
  bait_biter._get_edited_transcript st = (inr normalized, st1) →
  src._get_transcript st = (inr raw, st2) →
  let tokens := word_tokenize (replace [nbsp] [space] raw) in
  let kept := normalized_tokens (replace [nbsp] [space] raw) in
  normalized = rejoin_step kept
  ∧ kept `sublist_of` stem_step tokens
  ∧ (length kept ≤ length tokens)%nat
  ∧ (Forall is_word kept →
     words normalized = kept
     ∧ (length (words normalized) ≤ length tokens)%nat).
Proof.
  intros Hn Hr tokens kept.
  unfold bait_biter._get_edited_transcript, src._get_transcript in Hn, Hr.
  unfold_methods.
  destruct (video_id (self st)) as [v |]; [| discriminate].
  destruct (YouTubeTranscriptApi_get_transcript v (world st)) as [[e | fetched] w];
    simpl in Hn, Hr; [discriminate |].
  injection Hn as <- _. injection Hr as <- _.
  assert (Hjoin : join [space]
                    (comprehension (fun word => word)
                       (fun word => negb (bool_decide
                                           (lower word ∈ (list_to_set stopwords_words_english : gset str))))
                       (comprehension PorterStemmer_stem (fun _ => true)
                          (word_tokenize
                             (replace [nbsp] [space]
                                (replace [newline] [space]
                                   (TextFormatter_format_transcript fetched))))))
                  = rejoin_step kept).
  { unfold kept, rejoin_step, normalized_tokens, discard_step, stem_step,
      tokenize_step, stop_set.
    by rewrite comprehension_all, (comprehension_unless (fun x => lower x ∈ _)). }
  assert (Hlen : (length kept ≤ length tokens)%nat).
  { unfold kept, normalized_tokens, discard_step, stem_step, tokenize_step.
    etransitivity; [apply length_filter |]. by rewrite length_fmap. }
  split; [exact Hjoin |]. split; [apply sublist_filter |]. split; [exact Hlen |].
  intros Hwords. rewrite Hjoin. unfold rejoin_step.
  rewrite words_join by done. done.
Qed.

Lemma normalized_no_more_tokens_witness :
  (length (normalized_tokens (H := Stub.env Stub.hard_space)
             (replace [nbsp] [space] [97%N; nbsp; 98%N]))
   ≤ length (word_tokenize (Env := Stub.env Stub.hard_space)
               (replace [nbsp] [space] [97%N; nbsp; 98%N])))%nat.
Proof.
  destruct (normalized_no_more_tokens (H := Stub.env Stub.hard_space)
              (Stub.identified Stub.hard_space)
              [97; space; 98] [97; nbsp; 98] _ _ eq_refl eq_refl)
    as (_ & _ & Hlen & _).
  exact Hlen.
Defined.

(** C7 as stated fails: counted in words, the normalized transcript can
    contain more than the raw one.  For the caption "can't stop" the
    raw-mode transcript is "can't stop", two words, and the normalized
    transcript is "ca n't stop", three words, the tokenizer making two
    tokens of "can't". *)
Lemma normalized_more_words_than_raw :
  fst (src._get_transcript (Stub.identified Stub.contraction))
  = inr (py "can't stop")
  ∧ fst (bait_biter._get_edited_transcript (Stub.identified Stub.contraction))
    = inr (py "ca n't stop")
  ∧ ¬ (∀ (E : Env) (st : state) (normalized raw : str) (st1 st2 : state),
          bait_biter._get_edited_transcript st = (inr normalized, st1) →
          src._get_transcript st = (inr raw, st2) →
          (length (words normalized) ≤ length (words raw))%nat).
Proof.
  split; [vm_compute; reflexivity |]. split; [vm_compute; reflexivity |].
  intros Hclaim.
  assert (Hwords := Hclaim (Stub.env Stub.contraction)
                      (Stub.identified Stub.contraction)
                      (py "ca n't stop") (py "can't stop") _ _ eq_refl eq_refl).
  vm_compute in Hwords. lia.
Qed.

(** ** The answer operation, again *)

(** C8: in both variants the answer operation leaves every attribute of
    the object as it was; on an object with answer model, transcript and
    question set, every invocation adds exactly one completion call and
    returns what the endpoint answers in the world it finds, so that two
    invocations in a row make two calls; and with an endpoint that answers
    differently each time, two invocations on the same object return
    different texts. *)
Theorem answer_not_memoized `{Env} :
  asks_anew bait_biter.answer_title_question
  ∧ asks_anew src.answer_title_question
  ∧ (let st := Stub.session Stub.scenario Stub.ready (tail Stub.answers) in
     fst (bait_biter.answer_title_question st)
     ≠ fst (bait_biter.answer_title_question
              (snd (bait_biter.answer_title_question st)))
     ∧ fst (src.answer_title_question st)
       ≠ fst (src.answer_title_question (snd (src.answer_title_question st)))).
Proof.
  split; [| split].
  - split.
    + intros st. unfold bait_biter.answer_title_question. unfold_methods.
      destruct (answer_model_type (self st)); [| done].
      destruct (transcript (self st)); [| done].
      destruct (question (self st)); [| done].
      simpl. repeat oracle; reflexivity.
    + intros st model t q Hm Ht Hq c st1 st2.
      assert (Hrun := bait_answer_run st model t q Hm Ht Hq).
      assert (Hst1 : st1 = snd (bait_biter.answer_title_question st)) by done.
      rewrite Hrun in Hst1. simpl in Hst1.
      assert (Hrun1 := bait_answer_run st1 model t q).
      rewrite Hst1 in Hrun1 at 1 2 3. simpl in Hrun1.
      specialize (Hrun1 Hm Ht Hq).
      unfold st2. rewrite Hrun1, Hrun. simpl. rewrite Hst1. simpl.
      rewrite <- app_assoc. done.
  - split.
    + intros st. unfold src.answer_title_question. unfold_methods.
      destruct (answer_model_type (self st)); [| done].
      destruct (transcript (self st)); [| done].
      destruct (question (self st)); [| done].
      simpl. repeat oracle; reflexivity.
    + intros st model t q Hm Ht Hq c st1 st2.
      assert (Hrun := src_answer_run st model t q Hm Ht Hq).
      assert (Hst1 : st1 = snd (src.answer_title_question st)) by done.
      rewrite Hrun in Hst1. simpl in Hst1.
      assert (Hrun1 := src_answer_run st1 model t q).
      rewrite Hst1 in Hrun1 at 1 2 3. simpl in Hrun1.
      specialize (Hrun1 Hm Ht Hq).
      unfold st2. rewrite Hrun1, Hrun. simpl. rewrite Hst1. simpl.
      rewrite <- app_assoc. done.
  - split; vm_compute; discriminate.
Qed.

Lemma answer_not_memoized_witness :
  trace (snd (bait_biter.answer_title_question
                (snd (bait_biter.answer_title_question
                        (Stub.session Stub.scenario Stub.ready (tail Stub.answers))))))
  = [Completion (py "text-davinci-003")
       (py "trick i alway check work twice submitting | What is the trick?") 100;
     Completion (py "text-davinci-003")
       (py "trick i alway check work twice submitting | What is the trick?") 100].
Proof.
  destruct (answer_not_memoized (H := Stub.env Stub.scenario)) as [[_ Hbait] _].
  destruct (Hbait (Stub.session Stub.scenario Stub.ready (tail Stub.answers))
              (py "text-davinci-003")
              (py "trick i alway check work twice submitting")
              (py "What is the trick?") eq_refl eq_refl eq_refl)
    as (_ & Htwo & _).
  exact Htwo.
Defined.

(** ** Joining the captions *)

(** C9 fails in the raw-mode variant: for a caption "a\xa0b" its
    transcript retriever returns "a\xa0b", the non-breaking space still in
    it, where the normalized-mode variant has turned it into a space before
    tokenizing. *)
Theorem raw_transcript_keeps_nbsp :
  fst (src._get_transcript (Stub.identified Stub.hard_space)) = inr [97; nbsp; 98]
  ∧ joined (H := Stub.env Stub.hard_space) [[97; nbsp; 98]] = [97; space; 98]
  ∧ fst (bait_biter._get_edited_transcript (Stub.identified Stub.hard_space))
    = inr [97; space; 98].
Proof. repeat split; vm_compute; reflexivity. Qed.

(** ** The credential *)

(** C10: in both variants the credential is stored by the constructor and
    read by nothing: every method run on an object that holds another
    credential returns the same, makes the same calls and leaves the same
    world, and two constructions that differ in the credential alone end
    with the same result, world and calls, the objects differing in the
    stored credential only. *)
Theorem credential_has_no_effect `{Env} :
  (key_blind bait_biter._fetch_title
   ∧ key_blind bait_biter._get_edited_transcript
   ∧ (∀ gpt_model, key_blind (bait_biter._generate_question_from_title gpt_model))
   ∧ key_blind bait_biter.answer_title_question
   ∧ key_blind_init bait_biter.__init__)
  ∧ (key_blind src._fetch_title
     ∧ key_blind src._get_transcript
     ∧ (∀ gpt_model, key_blind (src._generate_question_from_title gpt_model))
     ∧ key_blind src.answer_title_question
     ∧ key_blind_init src.__init__).
Proof.
  unfold key_blind, key_blind_init, rekey,
    bait_biter.__init__, bait_biter._fetch_title,
    bait_biter._get_edited_transcript, bait_biter._generate_question_from_title,
    bait_biter.answer_title_question,
    src.__init__, src._fetch_title, src._get_transcript,
    src._generate_question_from_title, src.answer_title_question.
  split; repeat split; intros; run_methods st.
Qed.

Lemma credential_has_no_effect_witness :
  bait_biter.new (H := Stub.env Stub.scenario)
    Stub.url (py "sk-2") None None Stub.answers []
  = (inr (with_api_key (py "sk-2") Stub.ready), drop 1 Stub.answers,
     [HttpGet (oembed_url (py "abc123DEF45")); TranscriptFetch (py "abc123DEF45");
      Completion (py "text-davinci-003")
        (py "Title: You Won't Believe This Trick") 200]).
Proof.
  destruct (credential_has_no_effect (H := Stub.env Stub.scenario))
    as [(_ & _ & _ & _ & Hinit) _].
  unfold bait_biter.new.
  rewrite (Hinit Stub.url (py "sk-1") (py "sk-2") None None
             (@Build_state (Stub.env Stub.scenario) blank Stub.answers [])).
  vm_compute. reflexivity.
Defined.

(** * Further properties of the two files *)

(** ** Strings, again *)

Lemma replace_char_map (c d : N) (s : str) :
  replace [c] [d] s = (fun x => if decide (c = x) then d else x) <$> s.
Proof.
  rewrite replace_char. induction s as [|x s IH]; simpl; [done |].
  rewrite IH. by destruct (decide (c = x)).
Qed.

Lemma replace_char_absent (c d : N) (s : str) : c ∉ s → replace [c] [d] s = s.
Proof.
  rewrite replace_char_map. induction s as [|x s IH]; [done |].
  intros [Hx Hs]%not_elem_of_cons.
  rewrite fmap_cons, IH by done. by destruct (decide (c = x)).
Qed.

Lemma oembed_url_inj (v1 v2 : str) : oembed_url v1 = oembed_url v2 → v1 = v2.
Proof.
  unfold oembed_url. intros Heq.
  apply app_inv_head in Heq. by apply app_inv_tail in Heq.
Qed.

Lemma filter_none {A} (P : A → Prop) `{!∀ x, Decision (P x)} (l : list A) :
  (∀ x, x ∈ l → ¬ P x) → filter P l = [].
Proof.
  induction l as [|x l IH]; intros Hl; [done |].
  rewrite filter_cons_False by (apply Hl; left).
  apply IH. intros y Hy. apply Hl. by right.
Qed.

(** ** The title fetch on a body that is no object *)

(** X1: in both variants, when the body of the lookup parses to a JSON
    value that is not an object (an array, a string, a number, a boolean,
    null), [data["title"]] raises TypeError: the title fetch fails with it,
    the one GET made. *)
Theorem title_fetch_non_object `{Env} (st : state) (v : str)
    (response : Response) (w : World) (data : pyval) :
  video_id (self st) = Some v →
  requests_get (oembed_url v) (world st) = (inr response, w) →
  json_loads (content response) = Some data →
  (∀ d, data ≠ PDict d) →
  let after :=
    {| self := self st; world := w; trace := trace st ++ [HttpGet (oembed_url v)] |} in
  bait_biter._fetch_title st = (inl TypeError, after)
  ∧ src._fetch_title st = (inl TypeError, after).
Proof.
  intros Hv Hget Hjson Hdata after.
  unfold bait_biter._fetch_title, src._fetch_title. unfold_methods.
  rewrite Hv. simpl. rewrite Hget. simpl. rewrite Hjson.
  destruct data; try done. by destruct (Hdata d).
Qed.

Lemma title_fetch_non_object_witness :
  fst (bait_biter._fetch_title (Stub.identified Stub.listing)) = inl TypeError.
Proof.
  destruct (title_fetch_non_object (H := Stub.env Stub.listing)
              (Stub.identified Stub.listing) (py "abc123DEF45")
              {| status_code := 200; content := py "{...}" |} Stub.answers (PList [])
              eq_refl eq_refl eq_refl ltac:(intros d; discriminate)) as [-> _].
  reflexivity.
Defined.

(** ** Completions without a choice *)

(** X2: in both variants, when the endpoint answers the answer operation
    with a completion that has no choice, [completion.choices[0]] raises
    IndexError: the operation fails with it after the call was made, the
    object as it was. *)
Theorem answer_without_choices `{Env} (st : state) (model t q : str) (w : World) :
  answer_model_type (self st) = Some model →
  transcript (self st) = Some t →
  question (self st) = Some q →
  Completion_create model (answer_question_prompt t q) 100 (world st)
  = (inr {| choices := [] |}, w) →
  let after :=
    {| self := self st; world := w;
       trace := trace st ++ [Completion model (answer_question_prompt t q) 100] |} in
  bait_biter.answer_title_question st = (inl IndexError, after)
  ∧ src.answer_title_question st = (inl IndexError, after).
Proof.
  intros Hm Ht Hq Hc after.
  rewrite (bait_answer_run st model t q Hm Ht Hq),
    (src_answer_run st model t q Hm Ht Hq).
  unfold completion_text, answer_call. rewrite Hc. done.
Qed.

Lemma answer_without_choices_witness :
  fst (src.answer_title_question (Stub.session Stub.scenario Stub.ready Stub.silent))
  = inl IndexError.
Proof.
  destruct (answer_without_choices (H := Stub.env Stub.scenario)
              (Stub.session Stub.scenario Stub.ready Stub.silent)
              (py "text-davinci-003")
              (py "trick i alway check work twice submitting")
              (py "What is the trick?") [] eq_refl eq_refl eq_refl eq_refl)
    as [_ ->].
  reflexivity.
Defined.

(** ** Question synthesis, called with or without a model *)

(** X3: in both variants the question synthesis, on an object whose title
    is set, makes one completion call with a budget of 200 tokens to the
    model it is passed, and to "text-davinci-003" when it is passed none;
    an error of the endpoint is raised as it is, a completion without a
    choice raises IndexError, and otherwise the text of the first choice
    is returned. *)
Theorem question_generation_outcomes `{Env} (st : state) (t : pyval)
    (gpt_model : option str) :
  title (self st) = Some t →
  let model :=
    match gpt_model with Some m => m | None => py "text-davinci-003" end in
  let prompt := question_from_title_prompt t in
  let after w :=
    {| self := self st; world := w;
       trace := trace st ++ [Completion model prompt 200] |} in
  (∀ e w, Completion_create model prompt 200 (world st) = (inl e, w) →
          bait_biter._generate_question_from_title gpt_model st = (inl e, after w)
          ∧ src._generate_question_from_title gpt_model st = (inl e, after w))
  ∧ (∀ w, Completion_create model prompt 200 (world st)
          = (inr {| choices := [] |}, w) →
          bait_biter._generate_question_from_title gpt_model st
          = (inl IndexError, after w)
          ∧ src._generate_question_from_title gpt_model st
            = (inl IndexError, after w))
  ∧ (∀ c rest w, Completion_create model prompt 200 (world st)
                 = (inr {| choices := c :: rest |}, w) →
                 bait_biter._generate_question_from_title gpt_model st
                 = (inr (text c), after w)
                 ∧ src._generate_question_from_title gpt_model st
                   = (inr (text c), after w)).
Proof.
  intros Ht model prompt after.
  unfold bait_biter._generate_question_from_title,
    src._generate_question_from_title.
  unfold_methods. rewrite Ht. simpl. fold model. fold prompt.
  split; [| split];
    [intros e w Hc | intros w Hc | intros c rest w Hc]; rewrite Hc; split; reflexivity.
Qed.

Lemma question_generation_outcomes_witness :
  bait_biter._generate_question_from_title (Some (py "text-curie-001"))
    (Stub.session Stub.scenario Stub.ready Stub.answers)
  = (inr (py "What is the trick?"),
     @Build_state (Stub.env Stub.scenario) Stub.ready (tail Stub.answers)
       [Completion (py "text-curie-001")
          (question_from_title_prompt (Env := Stub.env Stub.scenario) Stub.the_title)
          200]).
Proof.
  destruct (question_generation_outcomes (H := Stub.env Stub.scenario)
              (Stub.session Stub.scenario Stub.ready Stub.answers)
              Stub.the_title (Some (py "text-curie-001")) eq_refl)
    as (_ & _ & Htext).
  destruct (Htext {| text := py "What is the trick?" |} [] (tail Stub.answers) eq_refl)
    as [-> _].
  reflexivity.
Defined.

(** ** Attributes that are not set *)

(** X4: in both variants a method that reads an attribute which is not
    set raises AttributeError before any call is made: the world, the calls
    and the object are as they were.  The title fetch and the transcript
    retriever read the identifier, the question synthesis the title, the
    answer operation the answer model, the transcript and the question. *)
Theorem unset_attribute_no_call `{Env} (st : state) :
  (video_id (self st) = None →
   bait_biter._fetch_title st = (inl AttributeError, st)
   ∧ bait_biter._get_edited_transcript st = (inl AttributeError, st)
   ∧ src._fetch_title st = (inl AttributeError, st)
   ∧ src._get_transcript st = (inl AttributeError, st))
  ∧ (title (self st) = None →
     ∀ gpt_model,
       bait_biter._generate_question_from_title gpt_model st
       = (inl AttributeError, st)
       ∧ src._generate_question_from_title gpt_model st = (inl AttributeError, st))
  ∧ (answer_model_type (self st) = None ∨ transcript (self st) = None
     ∨ question (self st) = None →
     bait_biter.answer_title_question st = (inl AttributeError, st)
     ∧ src.answer_title_question st = (inl AttributeError, st)).
Proof.
  unfold bait_biter._fetch_title, bait_biter._get_edited_transcript,
    bait_biter._generate_question_from_title, bait_biter.answer_title_question,
    src._fetch_title, src._get_transcript, src._generate_question_from_title,
    src.answer_title_question.
  unfold_methods.
  destruct st as [[u k qm am v t e q] w calls]. simpl.
  split; [| split].
  - intros ->. done.
  - intros -> gpt_model. done.
  - intros [-> | [-> | ->]]; repeat attr; done.
Qed.

Lemma unset_attribute_no_call_witness :
  bait_biter.answer_title_question (Stub.session Stub.scenario blank Stub.answers)
  = (inl AttributeError, Stub.session Stub.scenario blank Stub.answers).
Proof.
  destruct (unset_attribute_no_call (H := Stub.env Stub.scenario)
              (Stub.session Stub.scenario blank Stub.answers)) as (_ & _ & Hanswer).
  destruct (Hanswer (or_introl eq_refl)) as [Hbait _].
  exact Hbait.
Defined.

(** ** What the helpers leave alone *)

(** X5: in both variants the title fetch, the transcript retriever and the
    question synthesis assign no attribute: whatever they return or raise,
    the object is as it was.  Only the constructor assigns. *)
Theorem helpers_leave_object `{Env} (st : state) (gpt_model : option str) :
  self (snd (bait_biter._fetch_title st)) = self st
  ∧ self (snd (bait_biter._get_edited_transcript st)) = self st
  ∧ self (snd (bait_biter._generate_question_from_title gpt_model st)) = self st
  ∧ self (snd (src._fetch_title st)) = self st
  ∧ self (snd (src._get_transcript st)) = self st
  ∧ self (snd (src._generate_question_from_title gpt_model st)) = self st.
Proof.
  unfold bait_biter._fetch_title, bait_biter._get_edited_transcript,
    bait_biter._generate_question_from_title,
    src._fetch_title, src._get_transcript, src._generate_question_from_title.
  repeat split; run_methods st.
Qed.

(** ** The constructor reads what it has assigned *)

(** X6: in both variants the constructor body reads no attribute that it
    has not assigned before: run on two objects in the same world, it
    returns or raises the same, makes the same calls and leaves the same
    world, and when it returns, the two objects have become equal. *)
Theorem init_ignores_prior_object `{Env} (url key : str) (qm am : option str)
    (o1 o2 : ClickbaitVideo) (w : World) (calls : list call) :
  (let r1 := bait_biter.__init__ url key qm am
               {| self := o1; world := w; trace := calls |} in
   let r2 := bait_biter.__init__ url key qm am
               {| self := o2; world := w; trace := calls |} in
   fst r1 = fst r2 ∧ world (snd r1) = world (snd r2)
   ∧ trace (snd r1) = trace (snd r2)
   ∧ (fst r1 = inr tt → snd r1 = snd r2))
  ∧ (let r1 := src.__init__ url key qm am
                 {| self := o1; world := w; trace := calls |} in
     let r2 := src.__init__ url key qm am
                 {| self := o2; world := w; trace := calls |} in
     fst r1 = fst r2 ∧ world (snd r1) = world (snd r2)
     ∧ trace (snd r1) = trace (snd r2)
     ∧ (fst r1 = inr tt → snd r1 = snd r2)).
Proof.
  unfold bait_biter.__init__, bait_biter._fetch_title,
    bait_biter._get_edited_transcript, bait_biter._generate_question_from_title,
    src.__init__, src._fetch_title, src._get_transcript,
    src._generate_question_from_title.
  unfold_methods. simpl.
  split; repeat oracle; repeat split; done.
Qed.

(** ** Constructed objects *)

(** X7: an object that construction hands out, in either variant, holds
    the URL, the credential and the question model the constructor was
    given ("text-davinci-003" when it was given none), and every method
    finds the attributes it reads: run on the object, the title fetch makes
    exactly one GET, the transcript retriever one transcript fetch, the
    question synthesis one completion call with a budget of 200 and the
    answer operation one with a budget of 100. *)
Theorem constructed_object_usable `{Env} (url key : str) (qm am : option str)
    (w0 : World) (calls0 : list call) (o : ClickbaitVideo)
    (w1 : World) (calls1 : list call) :
  (bait_biter.new url key qm am w0 calls0 = (inr o, w1, calls1) →
   yt_url o = Some url ∧ api_key o = Some key
   ∧ question_model o = Some (arg (py "text-davinci-003") qm)
   ∧ ∀ w calls gpt_model,
       let st := {| self := o; world := w; trace := calls |} in
       (∃ u, trace (snd (bait_biter._fetch_title st)) = calls ++ [HttpGet u])
       ∧ (∃ v, trace (snd (bait_biter._get_edited_transcript st))
               = calls ++ [TranscriptFetch v])
       ∧ (∃ m p, trace (snd (bait_biter._generate_question_from_title gpt_model st))
                 = calls ++ [Completion m p 200])
       ∧ (∃ m p, trace (snd (bait_biter.answer_title_question st))
                 = calls ++ [Completion m p 100]))
  ∧ (src.new url key qm am w0 calls0 = (inr o, w1, calls1) →
     yt_url o = Some url ∧ api_key o = Some key
     ∧ question_model o = Some (arg (py "text-davinci-003") qm)
     ∧ ∀ w calls gpt_model,
         let st := {| self := o; world := w; trace := calls |} in
         (∃ u, trace (snd (src._fetch_title st)) = calls ++ [HttpGet u])
         ∧ (∃ v, trace (snd (src._get_transcript st)) = calls ++ [TranscriptFetch v])
         ∧ (∃ m p, trace (snd (src._generate_question_from_title gpt_model st))
                   = calls ++ [Completion m p 200])
         ∧ (∃ m p, trace (snd (src.answer_title_question st))
                   = calls ++ [Completion m p 100])).
Proof.
  split; intros Hnew;
    [rewrite bait_new_staged in Hnew | rewrite src_new_staged in Hnew];
    apply staged_ready in Hnew as (v & t & fetched & q & ->);
    (split; [reflexivity |]); (split; [reflexivity |]); (split; [reflexivity |]);
    intros w calls gpt_model st; subst st;
    unfold bait_biter._fetch_title, bait_biter._get_edited_transcript,
      bait_biter._generate_question_from_title, bait_biter.answer_title_question,
      src._fetch_title, src._get_transcript, src._generate_question_from_title,
      src.answer_title_question;
    unfold_methods; simpl;
    (split; [| split; [| split]]); repeat oracle; eauto.
Qed.

Lemma constructed_object_usable_witness :
  ∃ m p,
    trace (snd (src.answer_title_question
                  (Stub.session Stub.scenario
                     (with_transcript
                        (py "the trick is to always check your work twice before submitting")
                        (with_answer_model_type (py "text-curie-001") Stub.ready))
                     Stub.silent)))
    = [] ++ [Completion m p 100].
Proof.
  assert (Hnew : src.new (H := Stub.env Stub.scenario)
                   Stub.url (py "sk-1") None None Stub.answers []
                 = (inr (with_transcript
                           (py "the trick is to always check your work twice before submitting")
                           (with_answer_model_type (py "text-curie-001") Stub.ready)),
                    tail Stub.answers,
                    [HttpGet (oembed_url (py "abc123DEF45")); TranscriptFetch (py "abc123DEF45");
                     Completion (py "text-davinci-003")
                       (py "Title: You Won't Believe This Trick") 200]))
    by (vm_compute; reflexivity).
  destruct (proj2 (constructed_object_usable (H := Stub.env Stub.scenario)
                     _ _ _ _ _ _ _ _ _) Hnew) as (_ & _ & _ & Hrun).
  destruct (Hrun Stub.silent [] None) as (_ & _ & _ & Hanswer).
  exact Hanswer.
Defined.

(** X8: construction, in either variant and whatever its outcome, adds to
    the calls made before and removes none; it makes at most three calls, at
    most one of them a completion call, and exactly three when it hands out
    an object. *)
Theorem construction_call_budget `{Env} (url key : str) (qm am : option str)
    (w : World) (calls : list call) :
  (∃ made,
      snd (bait_biter.new url key qm am w calls) = calls ++ made
      ∧ (length made ≤ 3)%nat
      ∧ (length (filter (fun c => is_completion c = true) made) ≤ 1)%nat
      ∧ (∀ o, fst (fst (bait_biter.new url key qm am w calls)) = inr o →
              length made = 3%nat))
  ∧ (∃ made,
        snd (src.new url key qm am w calls) = calls ++ made
        ∧ (length made ≤ 3)%nat
        ∧ (length (filter (fun c => is_completion c = true) made) ≤ 1)%nat
        ∧ (∀ o, fst (fst (src.new url key qm am w calls)) = inr o →
                length made = 3%nat)).
Proof.
  rewrite bait_new_staged, src_new_staged.
  unfold staged, title_stage, completion_text, question_call.
  split; repeat oracle;
    first [ exists []; split; [by rewrite app_nil_r |]
          | eexists; split; [reflexivity |] ];
    (split; [simpl; lia |]); (split; [vm_compute; lia |]); intros ? Ho;
    solve [discriminate Ho | reflexivity].
Qed.

(** ** The transcript *)

(** X9: the transcript that the raw-mode retriever returns for a fetched
    caption track is the formatter's text with each newline turned into a
    space and nothing else touched: it is as long, it has no newline, its
    characters are the text's but for the newlines, and a text without a
    newline is returned as it is. *)
Theorem raw_transcript_shape `{Env} (st : state) (v : str)
    (fetched : Transcript) (w : World) :
  video_id (self st) = Some v →
  YouTubeTranscriptApi_get_transcript v (world st) = (inr fetched, w) →
  ∃ raw,
    src._get_transcript st
    = (inr raw,
       {| self := self st; world := w; trace := trace st ++ [TranscriptFetch v] |})
    ∧ length raw = length (TextFormatter_format_transcript fetched)
    ∧ (newline ∉ raw)
    ∧ (∀ (i : nat) c,
          TextFormatter_format_transcript fetched !! i = Some c →
          raw !! i = Some (if decide (c = newline) then space else c))
    ∧ (newline ∉ TextFormatter_format_transcript fetched →
       raw = TextFormatter_format_transcript fetched).
Proof.
  intros Hv Hf. eexists. split.
  - unfold src._get_transcript. unfold_methods. rewrite Hv. simpl. rewrite Hf.
    reflexivity.
  - split; [| split; [| split]].
    + by rewrite replace_char_map, length_fmap.
    + by apply replace_char_gone.
    + intros i c Hi. rewrite replace_char_map, list_lookup_fmap, Hi. simpl.
      f_equal. destruct (decide (newline = c)), (decide (c = newline)); congruence.
    + apply replace_char_absent.
Qed.

Lemma raw_transcript_shape_witness :
  ∃ raw,
    fst (src._get_transcript (Stub.identified Stub.scenario)) = inr raw
    ∧ length raw = 62%nat ∧ (newline ∉ raw).
Proof.
  destruct (raw_transcript_shape (H := Stub.env Stub.scenario)
              (Stub.identified Stub.scenario) (py "abc123DEF45")
              [py "the trick is to always check"; py "your work twice before submitting"]
              Stub.answers eq_refl eq_refl)
    as (raw & Hrun & Hlen & Hnl & _).
  exists raw. rewrite Hrun. split; [reflexivity |]. split; [| exact Hnl].
  rewrite Hlen. vm_compute. reflexivity.
Defined.

(** X10: when the stem of every token of the caption track is, in lower
    case, a stopword (in particular when there is no token at all), the
    normalized-mode retriever returns the empty string; it raises nothing. *)
Theorem all_stopwords_empty_transcript `{Env} (st : state) (v : str)
    (fetched : Transcript) (w : World) :
  video_id (self st) = Some v →
  YouTubeTranscriptApi_get_transcript v (world st) = (inr fetched, w) →
  (∀ token,
      token ∈ word_tokenize
                (replace [nbsp] [space]
                   (replace [newline] [space] (TextFormatter_format_transcript fetched))) →
      lower (PorterStemmer_stem token) ∈ stopwords_words_english) →
  bait_biter._get_edited_transcript st
  = (inr [],
     {| self := self st; world := w; trace := trace st ++ [TranscriptFetch v] |}).
Proof.
  intros Hv Hf Hall.
  unfold bait_biter._get_edited_transcript. unfold_methods.
  rewrite Hv. simpl. rewrite Hf.
  rewrite comprehension_all, (comprehension_unless (fun x => lower x ∈ _)).
  rewrite filter_none; [done |].
  intros s Hs Hnot. apply Hnot.
  apply list_elem_of_fmap in Hs as (token & -> & Htoken).
  apply elem_of_list_to_set. by apply Hall.
Qed.

Lemma all_stopwords_empty_transcript_witness :
  fst (bait_biter._get_edited_transcript (Stub.identified Stub.only_stopwords))
  = inr [].
Proof.
  assert (Hall : ∀ token,
             token ∈ [py "the"; py "to"; py "your"] →
             Stub.ascii_lower (Stub.toy_stem token)
             ∈ py <$> ["the"; "is"; "to"; "your"; "before"]%string).
  { intros token Htoken.
    apply elem_of_cons in Htoken as [-> | Htoken]; [decide_by_run |].
    apply elem_of_cons in Htoken as [-> | Htoken]; [decide_by_run |].
    apply elem_of_cons in Htoken as [-> | Htoken]; [decide_by_run |].
    by apply elem_of_nil in Htoken. }
  rewrite (all_stopwords_empty_transcript (H := Stub.env Stub.only_stopwords)
             (Stub.identified Stub.only_stopwords) (py "abc123DEF45")
             [py "the to"; py "your"] Stub.answers eq_refl eq_refl Hall).
  reflexivity.
Defined.

(** X11: the stopword test of the normalized-mode retriever is made on the
    stem, not on the token: the returned string is the surviving stems
    joined by spaces, where the stem of a token survives as soon as the
    stem is, in lower case, no stopword (whether or not the token is one),
    and every survivor is such a stem. *)
Theorem stopword_filter_tests_the_stem `{Env} (st : state) (v : str)
    (fetched : Transcript) (w : World) :
  video_id (self st) = Some v →
  YouTubeTranscriptApi_get_transcript v (world st) = (inr fetched, w) →
  let tokens :=
    word_tokenize
      (replace [nbsp] [space]
         (replace [newline] [space] (TextFormatter_format_transcript fetched))) in
  ∃ kept,
    fst (bait_biter._get_edited_transcript st) = inr (join [space] kept)
    ∧ (∀ token, token ∈ tokens →
                lower (PorterStemmer_stem token) ∉ stopwords_words_english →
                PorterStemmer_stem token ∈ kept)
    ∧ (∀ s, s ∈ kept →
            ∃ token, token ∈ tokens ∧ s = PorterStemmer_stem token
                     ∧ lower s ∉ stopwords_words_english).
Proof.
  intros Hv Hf tokens.
  exists (filter (fun s => lower s ∉ stop_set) (PorterStemmer_stem <$> tokens)).
  split; [| split].
  - unfold bait_biter._get_edited_transcript. unfold_methods.
    rewrite Hv. simpl. rewrite Hf. simpl.
    by rewrite comprehension_all, (comprehension_unless (fun x => lower x ∈ _)).
  - intros token Htoken Hstop. apply list_elem_of_filter. split.
    + unfold stop_set. by rewrite elem_of_list_to_set.
    + apply list_elem_of_fmap. eauto.
  - intros s Hs. apply list_elem_of_filter in Hs as [Hstop Hs].
    apply list_elem_of_fmap in Hs as (token & -> & Htoken).
    exists token. repeat split; [done |].
    unfold stop_set in Hstop. by rewrite elem_of_list_to_set in Hstop.
Qed.

Lemma stopword_filter_tests_the_stem_witness :
  ∃ kept,
    fst (bait_biter._get_edited_transcript (Stub.identified Stub.scenario))
    = inr (join [space] kept)
    ∧ Stub.toy_stem (py "is") ∈ kept.
Proof.
  destruct (stopword_filter_tests_the_stem (H := Stub.env Stub.scenario)
              (Stub.identified Stub.scenario) (py "abc123DEF45")
              [py "the trick is to always check"; py "your work twice before submitting"]
              Stub.answers eq_refl eq_refl)
    as (kept & Hrun & Hin & _).
  exists kept. split; [exact Hrun |].
  apply (Hin (py "is")); decide_by_run.
Defined.

(** ** The lookup URL *)

(** X12: the URL of the title lookup determines the video: in both
    variants, title fetches on objects with different identifiers make
    different GET calls, whatever the identifiers are; the identifier is
    put into the URL as it is. *)
Theorem title_lookup_identifies_video `{Env} (st1 st2 : state) (v1 v2 : str) :
  video_id (self st1) = Some v1 →
  video_id (self st2) = Some v2 →
  v1 ≠ v2 →
  last (trace (snd (bait_biter._fetch_title st1))) = Some (HttpGet (oembed_url v1))
  ∧ last (trace (snd (src._fetch_title st1))) = Some (HttpGet (oembed_url v1))
  ∧ last (trace (snd (bait_biter._fetch_title st1)))
    ≠ last (trace (snd (bait_biter._fetch_title st2)))
  ∧ last (trace (snd (src._fetch_title st1)))
    ≠ last (trace (snd (src._fetch_title st2))).
Proof.
  intros Hv1 Hv2 Hne.
  assert (Hbait : ∀ st v, video_id (self st) = Some v →
            last (trace (snd (bait_biter._fetch_title st)))
            = Some (HttpGet (oembed_url v))).
  { intros st v Hv. unfold bait_biter._fetch_title. unfold_methods.
    rewrite Hv. simpl. repeat oracle; apply last_snoc. }
  assert (Hsrc : ∀ st v, video_id (self st) = Some v →
            last (trace (snd (src._fetch_title st)))
            = Some (HttpGet (oembed_url v))).
  { intros st v Hv. unfold src._fetch_title. unfold_methods.
    rewrite Hv. simpl. repeat oracle; apply last_snoc. }
  rewrite (Hbait _ _ Hv1), (Hbait _ _ Hv2), (Hsrc _ _ Hv1), (Hsrc _ _ Hv2).
  repeat split; intros Heq; apply Hne, oembed_url_inj; congruence.
Qed.

Lemma title_lookup_identifies_video_witness :
  last (trace (snd (bait_biter._fetch_title (Stub.identified Stub.scenario))))
  ≠ last (trace (snd (bait_biter._fetch_title
                        (Stub.session Stub.scenario
                           (with_video_id (py "xyz789UVW01") blank) Stub.answers)))).
Proof.
  destruct (title_lookup_identifies_video (H := Stub.env Stub.scenario)
              (Stub.identified Stub.scenario)
              (Stub.session Stub.scenario (with_video_id (py "xyz789UVW01") blank)
                 Stub.answers)
              (py "abc123DEF45") (py "xyz789UVW01") eq_refl eq_refl
              ltac:(vm_compute; discriminate))
    as (_ & _ & Hbait & _).
  exact Hbait.
Defined.

(** ** The two files side by side *)

(** X13: what the two files share outside their prompt modules.  The
    title fetch of the two is one function; the two transcript retrievers
    make the same call, leave the same world, calls and object, and fail
    alike; and when the raw-mode retriever returns a transcript, the
    normalized-mode retriever returns the stems of the tokens of that
    transcript, its non-breaking spaces turned into spaces, without the
    stopwords and joined by single spaces. *)
Theorem variants_share_fetches `{Env} (st : state) :
  bait_biter._fetch_title st = src._fetch_title st
  ∧ snd (bait_biter._get_edited_transcript st) = snd (src._get_transcript st)
  ∧ (∀ e, fst (bait_biter._get_edited_transcript st) = inl e
          ↔ fst (src._get_transcript st) = inl e)
  ∧ (∀ raw, fst (src._get_transcript st) = inr raw →
            fst (bait_biter._get_edited_transcript st)
            = inr (join [space]
                     (filter (fun s => lower s ∉ stop_set)
                        (PorterStemmer_stem
                           <$> word_tokenize (replace [nbsp] [space] raw))))).
Proof.
  split; [reflexivity |]. split; [| split].
  - unfold bait_biter._get_edited_transcript, src._get_transcript.
    run_methods st.
  - intros e. unfold bait_biter._get_edited_transcript, src._get_transcript.
    destruct st as [[? ? ? ? ? ? ? ?] ? ?]. unfold_methods. simpl.
    repeat first [attr | oracle]; done.
  - intros raw. unfold bait_biter._get_edited_transcript, src._get_transcript.
    destruct st as [[? ? ? ? ? ? ? ?] ? ?]. unfold_methods. simpl.
    repeat first [attr | oracle]; intros Hraw; simplify_eq.
    unfold stop_set.
    by rewrite comprehension_all, (comprehension_unless (fun x => lower x ∈ _)).
Qed.
